(** * lmsapp/static/js/script.js: alert helper, button binder, form check

    A shallow embedding of the page script.  The script talks to three
    things of its host: the document (element lookup, the [value] property,
    event subscription), the [DOMContentLoaded] signal, and the blocking
    [alert] primitive.  The page state below holds exactly those, and every
    function of the script is a computation over it. *)

From stdpp Require Import base numbers strings list option.

Open Scope string_scope.
Open Scope list_scope.

(** ** JavaScript values met by the script *)

Module JS.

(** What [element.value] can evaluate to: a string on form controls, a
    number on [li], [meter] and [progress], [undefined] on elements that
    have no such property. *)
Inductive value : Type :=
| VUndefined
| VNumber (n : Z)
| VString (s : string).

#[export] Instance value_eq_dec : EqDecision value.
Proof. solve_decision. Defined.

(** [a === b]: no coercion, so operands of different types differ. *)
Definition strict_eq (a b : value) : bool :=
  match a, b with
  | VUndefined, VUndefined => true
  | VNumber x, VNumber y => bool_decide (x = y)
  | VString x, VString y => bool_decide (x = y)
  | _, _ => false
  end.

(** Errors the script can raise: reading a property of [null]. *)
Inductive error : Type :=
| TypeError.

(** How a call ends. *)
Inductive completion (A : Type) : Type :=
| Normal (a : A)
| Throw (e : error).
Arguments Normal {A} a.
Arguments Throw {A} e.

End JS.
Import JS.

(** ** The page *)

(** The two function expressions of the script, by the place they are
    written at.  Each evaluation of a function expression yields a new
    object, so [addEventListener] never finds it registered already and
    always appends. *)
Inductive click_listener : Type :=
| ButtonClicked.      (* function() { showAlert('Button clicked!'); } *)

Inductive ready_listener : Type :=
| BindButton.         (* function() { var myButton = ...; if (myButton) ... } *)

Record element : Type := mkElement {
  el_id : string;                      (* the id attribute *)
  el_value : value;                    (* the value property *)
  el_click : list click_listener       (* 'click' listeners, oldest first *)
}.

(** Elements appear in tree order; a reference to an element is its
    position. *)
Abbreviation ref := nat (only parsing).

Record page : Type := mkPage {
  elements : list element;
  ready : list ready_listener;         (* 'DOMContentLoaded' listeners *)
  loaded : bool;                       (* has the ready signal fired? *)
  alerts : list string                 (* messages shown so far, oldest first *)
}.

(** The page after further messages have been shown. *)
Definition shown (msgs : list string) (s : page) : page :=
  mkPage (elements s) (ready s) (loaded s) (alerts s ++ msgs).

(** ** Computations over the page *)

Definition js (A : Type) : Type := page -> completion A * page.

#[export] Instance js_ret : MRet js := fun A a s => (Normal a, s).

#[export] Instance js_bind : MBind js := fun A B f m s =>
  match m s with
  | (Normal a, s') => f a s'
  | (Throw e, s') => (Throw e, s')
  end.

Definition throw {A : Type} (e : error) : js A := fun s => (Throw e, s).

(** ** Host primitives *)

Definition has_id (id : string) (e : element) : Prop := el_id e = id.

#[export] Instance has_id_dec id e : Decision (has_id id e).
Proof. unfold has_id. apply _. Defined.

(** First element in tree order carrying the identifier. *)
Definition lookup_id (id : string) (s : page) : option ref :=
  fst <$> list_find (has_id id) (elements s).

(** [alert(m)]: the message is shown; the call yields [undefined]. *)
Definition alert (m : string) : js unit :=
  fun s => (Normal tt, shown [m] s).

(** [document.getElementById(id)]: the element, or [null]. *)
Definition getElementById (id : string) : js (option ref) :=
  fun s => (Normal (lookup_id id s), s).

(** [document.querySelector('#' + id)]: the element, or [null]. *)
Definition querySelector_hash (id : string) : js (option ref) :=
  fun s => (Normal (lookup_id id s), s).

(** [o.value]: a [TypeError] when [o] is [null]. *)
Definition get_value (o : option ref) : js value :=
  match o with
  | None => throw TypeError
  | Some r => fun s =>
      match elements s !! r with
      | Some e => (Normal (el_value e), s)
      | None => (Throw TypeError, s)
      end
  end.

Definition add_click (h : click_listener) (e : element) : element :=
  mkElement (el_id e) (el_value e) (el_click e ++ [h]).

(** [r.addEventListener('click', h)]. *)
Definition addEventListener_click (r : ref) (h : click_listener) : js unit :=
  fun s => (Normal tt, mkPage (alter (add_click h) r (elements s)) (ready s) (loaded s) (alerts s)).

(** [document.addEventListener('DOMContentLoaded', h)]. *)
Definition addEventListener_ready (h : ready_listener) : js unit :=
  fun s => (Normal tt, mkPage (elements s) (ready s ++ [h]) (loaded s) (alerts s)).

(** ** The script *)

(** function showAlert(message) { alert(message); } *)
Definition showAlert (message : string) : js unit :=
  alert message.

(** The body of the click listener. *)
Definition click_body (h : click_listener) : js unit :=
  match h with
  | ButtonClicked => showAlert "Button clicked!"
  end.

(** The body of the ready listener. *)
Definition ready_body (h : ready_listener) : js unit :=
  match h with
  | BindButton =>
      myButton ← querySelector_hash "myButton";
      match myButton with
      | Some b => addEventListener_click b ButtonClicked
      | None => mret tt
      end
  end.

(** function validateForm() *)
Definition validateForm : js bool :=
  field ← getElementById "username";
  username ← get_value field;
  if strict_eq username (VString "")
  then _ ← alert "Username is required!"; mret false
  else mret true.

(** Top level of the script: the two function declarations have no effect
    of their own, the statement between them subscribes to the ready
    signal. *)
Definition script : js unit :=
  addEventListener_ready BindButton.

(** ** The host's event loop *)

Definition exec {A : Type} (m : js A) (s : page) : page := (m s).2.

Definition result {A : Type} (m : js A) (s : page) : completion A := (m s).1.

(** An error raised by a listener is reported by the host and does not
    reach the other listeners. *)
Definition isolated (m : js unit) : js unit :=
  fun s => (Normal tt, exec m s).

Fixpoint run_listeners (ms : list (js unit)) : js unit :=
  match ms with
  | [] => mret tt
  | m :: ms' => _ ← isolated m; run_listeners ms'
  end.

(** One activation of the element [r]. *)
Definition dispatch_click (r : ref) : js unit :=
  fun s =>
    match elements s !! r with
    | Some e => run_listeners (click_body <$> el_click e) s
    | None => (Normal tt, s)
    end.

(** The ready signal: it fires once in the life of a page. *)
Definition dispatch_ready : js unit :=
  fun s =>
    if loaded s then (Normal tt, s)
    else run_listeners (ready_body <$> ready s)
           (mkPage (elements s) (ready s) true (alerts s)).

Definition set_value (v : value) (e : element) : element :=
  mkElement (el_id e) v (el_click e).

(** What can happen to a page once the script has run. *)
Inductive event : Type :=
| Ready                                (* DOMContentLoaded *)
| Click (r : ref)                      (* the user activates an element *)
| Input (r : ref) (v : string)         (* the user edits a form control *)
| Insert (id : string) (v : value)     (* an element is added to the tree *)
| Submit.                              (* the form calls validateForm() *)

#[export] Instance event_eq_dec : EqDecision event.
Proof. solve_decision. Defined.

Definition step (ev : event) (s : page) : page :=
  match ev with
  | Ready => exec dispatch_ready s
  | Click r => exec (dispatch_click r) s
  | Input r v =>
      mkPage (alter (set_value (VString v)) r (elements s))
             (ready s) (loaded s) (alerts s)
  | Insert id v =>
      mkPage (elements s ++ [mkElement id v []])
             (ready s) (loaded s) (alerts s)
  | Submit => exec validateForm s
  end.

Definition run (evs : list event) (s : page) : page :=
  foldl (fun s ev => step ev s) s evs.

(** An element as the parser builds it: nothing listens to it yet. *)
Definition parsed (d : string * value) : element :=
  mkElement d.1 d.2 [].

(** The page right after the script has been evaluated. *)
Definition load_page (html : list (string * value)) : page :=
  exec script (mkPage (parsed <$> html) [] false []).

(** ** Notions used in the statements *)

(** The value the form check reads: that of the first element whose
    identifier is "username", if there is one. *)
Definition field_value (s : page) : option value :=
  r ← lookup_id "username" s; el_value <$> elements s !! r.

(** The element the ready listener binds, if there is one. *)
Definition button (s : page) : option ref :=
  lookup_id "myButton" s.

Definition clicks_on (r : ref) (evs : list event) : nat :=
  length (filter (fun ev => ev = Click r) evs).

Definition button_alerts (s : page) : list string :=
  filter (fun m => m = "Button clicked!") (alerts s).

(** Number of click listeners on the element [r]. *)
Definition listeners_at (r : ref) (s : page) : nat :=
  from_option (fun e => length (el_click e)) 0 (elements s !! r).

(** ** Invariants of the life of a page *)

(** Before the ready signal: the script has subscribed to it, nothing
    listens to any element, and no button message has been shown. *)
Record pristine (s : page) : Prop := mkPristine {
  pristine_loaded : loaded s = false;
  pristine_ready : ready s = [BindButton];
  pristine_click : Forall (fun e => el_click e = []) (elements s);
  pristine_alerts : button_alerts s = []
}.

(** After the ready signal has bound the button [r]: one listener on [r],
    none elsewhere, and [n] button messages shown so far. *)
Record bound (r : ref) (n : nat) (s : page) : Prop := mkBound {
  bound_loaded : loaded s = true;
  bound_click : forall i e, elements s !! i = Some e ->
                  el_click e = if decide (i = r) then [ButtonClicked] else [];
  bound_range : r < length (elements s);
  bound_alerts : button_alerts s = replicate n "Button clicked!"
}.

(** ** Concrete pages *)

Definition demo_html : list (string * value) :=
  [("title", VUndefined); ("username", VString ""); ("myButton", VString "Go")].

Definition blank_html : list (string * value) :=
  [("username", VString " "); ("myButton", VString "Go")].

Definition bare_html : list (string * value) :=
  [("title", VUndefined); ("myButton", VString "Go")].

Definition plain_html : list (string * value) :=
  [("title", VUndefined); ("username", VString "carol")].


(** ** Further notions: late scripts, repeated scripts, idle pages *)

(** The signal has fired and nothing listens to any element: the state of
    a page whose button was missing at the signal, or whose script came
    too late. *)
Record idle (s : page) : Prop := mkIdle {
  idle_loaded : loaded s = true;
  idle_click : Forall (fun e => el_click e = []) (elements s)
}.

(** The page when the script is evaluated only after the ready signal has
    fired, as for a script element added to the tree later on. *)
Definition late_page (html : list (string * value)) : page :=
  exec script (mkPage (parsed <$> html) [] true []).

(** The page when the file has been included [k] times: the top level is
    evaluated [k] times before the ready signal. *)
Definition load_page_times (k : nat) (html : list (string * value)) : page :=
  Nat.iter k (exec script) (mkPage (parsed <$> html) [] false []).


(** ** Sanity checks on a concrete page *)

Example demo_validate_empty :
  validateForm (load_page demo_html)
  = (Normal false, shown ["Username is required!"] (load_page demo_html)).
Proof. reflexivity. Qed.

Example demo_validate_filled :
  result validateForm (run [Input 1 "alice"] (load_page demo_html)) = Normal true.
Proof. reflexivity. Qed.

Example demo_clicks :
  alerts (run [Click 2; Ready; Click 2; Submit; Click 2; Click 0] (load_page demo_html))
  = ["Button clicked!"; "Username is required!"; "Button clicked!"].
Proof. reflexivity. Qed.

Example demo_no_field :
  validateForm (load_page [("myButton", VString "Go")])
  = (Throw TypeError, load_page [("myButton", VString "Go")]).
Proof. reflexivity. Qed.

(** The comparison is strict: a value that is not a string, such as the
    number of an [li] named "username", is never equal to the empty string. *)
Example demo_strict :
  validateForm (load_page [("username", VNumber 0)])
  = (Normal true, load_page [("username", VNumber 0)]).
Proof. reflexivity. Qed.

(** ** Basic facts about the page and the primitives *)

Lemma shown_nil s : shown [] s = s.
Proof. destruct s; unfold shown; simpl. by rewrite app_nil_r. Qed.

Lemma shown_shown a b s : shown b (shown a s) = shown (a ++ b) s.
Proof. unfold shown; simpl. by rewrite app_assoc. Qed.

Lemma strict_eq_empty v : strict_eq v (VString "") = true <-> v = VString "".
Proof.
  destruct v as [| n | x]; simpl; try (split; [discriminate | discriminate]).
  rewrite bool_decide_eq_true. split; [intros -> | intros [= ->]]; reflexivity.
Qed.

Lemma lookup_id_None id s :
  lookup_id id s = None <-> Forall (fun e => el_id e <> id) (elements s).
Proof.
  unfold lookup_id. rewrite fmap_None, list_find_None. reflexivity.
Qed.

Lemma lookup_id_Some id s r :
  lookup_id id s = Some r <->
  exists e, elements s !! r = Some e /\ el_id e = id /\
            forall j e', elements s !! j = Some e' -> j < r -> el_id e' <> id.
Proof.
  unfold lookup_id. rewrite fmap_Some. split.
  - intros [[i e] [Hf ->]]. apply list_find_Some in Hf as (Hl & Hp & Hlt).
    exists e. split; [done |]. split; [done |]. intros j e' Hj Hjr. exact (Hlt j e' Hj Hjr).
  - intros (e & Hl & Hp & Hlt). exists (r, e). split; [| done].
    apply list_find_Some. repeat split; try done.
Qed.

(** [field_value] reads the first element in tree order named "username". *)
Lemma field_value_Some s v :
  field_value s = Some v <->
  exists r e, elements s !! r = Some e /\ el_id e = "username" /\ el_value e = v /\
              forall j e', elements s !! j = Some e' -> j < r -> el_id e' <> "username".
Proof.
  unfold field_value. rewrite bind_Some. split.
  - intros (r & Hr & Hv). apply lookup_id_Some in Hr as (e & Hl & Hid & Hlt).
    rewrite Hl in Hv. injection Hv as <-. exists r, e. done.
  - intros (r & e & Hl & Hid & Hv & Hlt). exists r. split.
    + apply lookup_id_Some. exists e. done.
    + rewrite Hl. simpl. by rewrite Hv.
Qed.

Lemma field_value_None s :
  Forall (fun e => el_id e <> "username") (elements s) -> field_value s = None.
Proof.
  intros H. apply lookup_id_None in H. unfold field_value. by rewrite H.
Qed.

(** The form check, case by case on what it reads. *)
Lemma validateForm_cases s :
  validateForm s =
  match field_value s with
  | None => (Throw TypeError, s)
  | Some v =>
      if strict_eq v (VString "")
      then (Normal false, shown ["Username is required!"] s)
      else (Normal true, s)
  end.
Proof.
  unfold validateForm, field_value, getElementById, mbind, js_bind, mret, js_ret.
  destruct (lookup_id "username" s) as [r|]; simpl; [| reflexivity].
  destruct (elements s !! r) as [e|]; simpl; [| reflexivity].
  destruct (strict_eq (el_value e) (VString "")); reflexivity.
Qed.

Lemma field_value_shown msgs s : field_value (shown msgs s) = field_value s.
Proof. reflexivity. Qed.

(** The form check changes nothing but the list of messages shown. *)
Lemma validateForm_shown s :
  exists msgs, exec validateForm s = shown msgs s /\
               (msgs = [] \/ msgs = ["Username is required!"]).
Proof.
  unfold exec. rewrite validateForm_cases.
  destruct (field_value s) as [v|]; simpl.
  - destruct (strict_eq v (VString "")); simpl.
    + exists ["Username is required!"]. auto.
    + exists []. rewrite shown_nil. auto.
  - exists []. rewrite shown_nil. auto.
Qed.

(** ** Listeners *)

Lemma click_body_shown h s :
  click_body h s = (Normal tt, shown ["Button clicked!"] s).
Proof. destruct h. reflexivity. Qed.

(** Every click listener of the script shows the same one message. *)
Lemma run_click_listeners hs s :
  run_listeners (click_body <$> hs) s
  = (Normal tt, shown (replicate (length hs) "Button clicked!") s).
Proof.
  revert s. induction hs as [| h hs IH]; intros s; simpl.
  - by rewrite shown_nil.
  - unfold mbind, js_bind, isolated, exec. rewrite click_body_shown. simpl.
    rewrite IH, shown_shown. reflexivity.
Qed.

Lemma dispatch_click_shown r s :
  dispatch_click r s
  = (Normal tt, shown (replicate (listeners_at r s) "Button clicked!") s).
Proof.
  unfold dispatch_click, listeners_at.
  destruct (elements s !! r) as [e|]; simpl.
  - apply run_click_listeners.
  - by rewrite shown_nil.
Qed.

(** The ready listener, case by case on the lookup. *)
Lemma ready_body_cases h s :
  ready_body h s =
  match lookup_id "myButton" s with
  | Some b =>
      (Normal tt,
       mkPage (alter (add_click ButtonClicked) b (elements s))
              (ready s) (loaded s) (alerts s))
  | None => (Normal tt, s)
  end.
Proof.
  destruct h. unfold ready_body, querySelector_hash, mbind, js_bind.
  destruct (lookup_id "myButton" s); reflexivity.
Qed.

(** ** The life of a page *)

Lemma run_snoc evs ev s : run (evs ++ [ev]) s = step ev (run evs s).
Proof. unfold run. by rewrite foldl_snoc. Qed.

Lemma run_app evs1 evs2 s : run (evs1 ++ evs2) s = run evs2 (run evs1 s).
Proof. unfold run. by rewrite foldl_app. Qed.

Lemma button_alerts_shown msgs s :
  button_alerts (shown msgs s)
  = button_alerts s ++ filter (fun m => m = "Button clicked!") msgs.
Proof. unfold button_alerts; simpl. by rewrite list.filter_app. Qed.

Lemma button_alerts_validateForm s :
  button_alerts (exec validateForm s) = button_alerts s.
Proof.
  destruct (validateForm_shown s) as (msgs & -> & [-> | ->]);
    rewrite button_alerts_shown; simpl; by rewrite app_nil_r.
Qed.

(** Running ready listeners touches no field but [elements]. *)
Lemma run_ready_listeners_frame hs s :
  let s' := exec (run_listeners (ready_body <$> hs)) s in
  ready s' = ready s /\ loaded s' = loaded s /\ alerts s' = alerts s.
Proof.
  revert s. induction hs as [| h hs IH]; intros s; simpl; [done |].
  unfold exec, mbind, js_bind, isolated, exec. rewrite ready_body_cases.
  destruct (lookup_id "myButton" s) as [b|]; simpl.
  - destruct (IH (mkPage (alter (add_click ButtonClicked) b (elements s))
                         (ready s) (loaded s) (alerts s))) as (H1 & H2 & H3).
    unfold exec in *. simpl in *. done.
  - apply IH.
Qed.

Lemma loaded_step_Ready s : loaded (step Ready s) = true.
Proof.
  simpl. unfold exec, dispatch_ready. destruct (loaded s) eqn:Hl; [done |].
  destruct (run_ready_listeners_frame (ready s)
              (mkPage (elements s) (ready s) true (alerts s))) as (_ & H & _).
  exact H.
Qed.

Lemma loaded_step ev s : loaded s = true -> loaded (step ev s) = true.
Proof.
  intros Hl. destruct ev as [| r | r v | id v |]; simpl; try done.
  - apply loaded_step_Ready.
  - unfold exec. by rewrite dispatch_click_shown.
  - by destruct (validateForm_shown s) as (msgs & -> & _).
Qed.

Lemma pristine_load_page html : pristine (load_page html).
Proof.
  split; try reflexivity. simpl.
  apply Forall_fmap, Forall_forall. intros; reflexivity.
Qed.

Lemma pristine_listeners_at r s : pristine s -> listeners_at r s = 0.
Proof.
  intros [_ _ Hc _]. unfold listeners_at.
  destruct (elements s !! r) as [e|] eqn:He; simpl; [| done].
  rewrite Forall_lookup in Hc. by rewrite (Hc r e He).
Qed.

Lemma pristine_step ev s : pristine s -> ev <> Ready -> pristine (step ev s).
Proof.
  intros Hp Hev. destruct ev as [| r | r v | id v |]; [done | | | |].
  - simpl. unfold exec. rewrite dispatch_click_shown, pristine_listeners_at by done.
    simpl. by rewrite shown_nil.
  - destruct Hp as [Hl Hr Hc Ha]. split; simpl; try done.
    apply Forall_alter; [done |]. intros e _ He. exact He.
  - destruct Hp as [Hl Hr Hc Ha]. split; simpl; try done.
    apply list.Forall_app. split; [done |]. by constructor.
  - pose proof (button_alerts_validateForm s) as Hb.
    destruct Hp as [Hl Hr Hc Ha]. simpl.
    destruct (validateForm_shown s) as (msgs & Hs & _). rewrite Hs in *.
    split; simpl; try done. by rewrite Hb.
Qed.

(** Every state a page passes through before the ready signal is pristine. *)
Lemma reach_pristine html evs :
  loaded (run evs (load_page html)) = false ->
  pristine (run evs (load_page html)).
Proof.
  induction evs as [| ev evs IH] using rev_ind; intros Hl.
  - apply pristine_load_page.
  - rewrite run_snoc in *.
    destruct (loaded (run evs (load_page html))) eqn:Hl'.
    + rewrite loaded_step in Hl by done. discriminate.
    + apply pristine_step; [by apply IH |].
      intros ->. rewrite loaded_step_Ready in Hl. discriminate.
Qed.

(** The flag is down exactly as long as no ready signal has been seen. *)
Lemma loaded_run html evs :
  loaded (run evs (load_page html)) = false <-> Ready ∉ evs.
Proof.
  induction evs as [| ev evs IH] using rev_ind.
  - split; [intros _; apply not_elem_of_nil | reflexivity].
  - rewrite run_snoc, not_elem_of_app, <- IH. split.
    + intros Hl. destruct (loaded (run evs (load_page html))) eqn:Hl'.
      * rewrite loaded_step in Hl by done. discriminate.
      * split; [done |]. intros [<-|[]%elem_of_nil]%elem_of_cons.
        rewrite loaded_step_Ready in Hl. discriminate.
    + intros [Hl Hev]. apply (pristine_step ev); [by apply reach_pristine |].
      intros ->. apply Hev. by left.
Qed.

Lemma bound_listeners_at r n s i :
  bound r n s -> listeners_at i s = if decide (i = r) then 1 else 0.
Proof.
  intros [_ Hc Hr _]. unfold listeners_at.
  destruct (elements s !! i) as [e|] eqn:He; simpl.
  - rewrite (Hc i e He). by destruct (decide (i = r)).
  - apply lookup_ge_None in He. destruct (decide (i = r)); [lia | done].
Qed.

Lemma bound_step r n ev s :
  bound r n s ->
  bound r (n + (if decide (ev = Click r) then 1 else 0)) (step ev s).
Proof.
  intros Hb. destruct ev as [| i | i v | id v |].
  - rewrite decide_False by done. rewrite Nat.add_0_r.
    simpl. unfold exec, dispatch_ready. by rewrite (bound_loaded _ _ _ Hb).
  - simpl. unfold exec. rewrite dispatch_click_shown, (bound_listeners_at r n s i Hb).
    destruct Hb as [Hl Hc Hr Ha]. destruct (decide (i = r)) as [-> | Hne].
    + rewrite decide_True by done. split; try done. cbn [snd].
      rewrite button_alerts_shown, Ha. by rewrite replicate_add.
    + rewrite decide_False by congruence.
      rewrite Nat.add_0_r. simpl. rewrite shown_nil. by split.
  - rewrite decide_False by done. rewrite Nat.add_0_r.
    destruct Hb as [Hl Hc Hr Ha]. split; simpl; try done.
    + intros j e. rewrite list_lookup_alter.
      destruct (decide (i = j)) as [-> |]; [| apply Hc].
      destruct (elements s !! j) as [e0|] eqn:He0; simpl; [| done].
      intros [= <-]. simpl. by apply Hc.
    + by rewrite length_alter.
  - rewrite decide_False by done. rewrite Nat.add_0_r.
    destruct Hb as [Hl Hc Hr Ha]. split; simpl; try done.
    + intros j e [[_ He] | [Hj He]]%lookup_snoc_Some; [by apply Hc |].
      subst e. simpl. rewrite decide_False by lia. done.
    + rewrite length_app. simpl. lia.
  - rewrite decide_False by done. rewrite Nat.add_0_r.
    pose proof (button_alerts_validateForm s) as Hv. simpl.
    destruct (validateForm_shown s) as (msgs & Hs & _). rewrite Hs in *.
    destruct Hb as [Hl Hc Hr Ha]. split; simpl; try done. by rewrite Hv.
Qed.

Lemma clicks_on_cons r ev evs :
  clicks_on r (ev :: evs)
  = (if decide (ev = Click r) then 1 else 0) + clicks_on r evs.
Proof.
  unfold clicks_on. rewrite filter_cons.
  by destruct (decide (ev = Click r)).
Qed.

Lemma bound_run r evs : forall n s,
  bound r n s -> bound r (n + clicks_on r evs) (run evs s).
Proof.
  induction evs as [| ev evs IH]; intros n s Hb.
  - unfold clicks_on. simpl. by rewrite Nat.add_0_r.
  - rewrite clicks_on_cons, Nat.add_assoc. apply (IH _ (step ev s)).
    by apply bound_step.
Qed.

(** What the ready signal does to a pristine page that has the button. *)
Lemma ready_binds s r :
  pristine s -> button s = Some r ->
  step Ready s
  = mkPage (alter (add_click ButtonClicked) r (elements s))
           (ready s) true (alerts s).
Proof.
  intros [Hl Hr _ _] Hb. cbn [step]. unfold exec, dispatch_ready. rewrite Hl, Hr.
  cbn [fmap list_fmap run_listeners]. unfold mbind, js_bind, isolated, exec.
  rewrite ready_body_cases. unfold button, lookup_id in *. cbn [elements].
  by rewrite Hb.
Qed.

(** ... and to one that has not. *)
Lemma ready_skips s :
  pristine s -> button s = None ->
  step Ready s = mkPage (elements s) (ready s) true (alerts s).
Proof.
  intros [Hl Hr _ _] Hb. cbn [step]. unfold exec, dispatch_ready. rewrite Hl, Hr.
  cbn [fmap list_fmap run_listeners]. unfold mbind, js_bind, isolated, exec.
  rewrite ready_body_cases. unfold button, lookup_id in *. cbn [elements].
  by rewrite Hb.
Qed.

Lemma ready_bound s r :
  pristine s -> button s = Some r -> bound r 0 (step Ready s).
Proof.
  intros Hp Hb. rewrite (ready_binds s r Hp Hb).
  apply lookup_id_Some in Hb as (e & He & _).
  destruct Hp as [Hl Hr Hc Ha]. split; simpl; try done.
  - intros i e'. rewrite list_lookup_alter.
    rewrite Forall_lookup in Hc.
    destruct (decide (r = i)) as [-> | Hne].
    + rewrite He. simpl. intros [= <-]. simpl.
      rewrite (Hc i e He). by rewrite decide_True.
    + intros He'. rewrite (Hc i e' He'). by rewrite decide_False.
  - rewrite length_alter. by eapply lookup_lt_Some.
Qed.

Lemma run_clicks r n : forall s,
  bound r 0 s ->
  alerts (run (replicate n (Click r)) s)
  = alerts s ++ replicate n "Button clicked!".
Proof.
  induction n as [| n IH]; intros s Hb.
  - simpl. by rewrite app_nil_r.
  - rewrite replicate_S_end, run_app, (replicate_S_end n "Button clicked!"), app_assoc.
    rewrite <- IH by done. simpl. unfold exec. rewrite dispatch_click_shown.
    pose proof (bound_run r (replicate n (Click r)) 0 s Hb) as Hb'.
    by rewrite (bound_listeners_at _ _ _ r Hb'), decide_True.
Qed.

(** ** The form check *)

(** C1: whenever the value of the username field is the empty string,
    [validateForm] returns [false] and shows exactly one message, the
    literal "Username is required!"; nothing else changes. *)
Theorem validate_empty_rejects s :
  field_value s = Some (VString "") ->
  validateForm s
  = (Normal false,
     mkPage (elements s) (ready s) (loaded s)
            (alerts s ++ ["Username is required!"])).
Proof.
  intros Hv. rewrite validateForm_cases, Hv. reflexivity.
Qed.

Lemma validate_empty_rejects_witness :
  field_value (load_page demo_html) = Some (VString "") /\
  validateForm (load_page demo_html)
  = (Normal false,
     mkPage (elements (load_page demo_html)) (ready (load_page demo_html))
            (loaded (load_page demo_html))
            (alerts (load_page demo_html) ++ ["Username is required!"])).
Proof.
  split; [reflexivity | apply validate_empty_rejects; reflexivity].
Defined.

(** C2: whenever the value of the username field is a string other than
    the empty one (a blank, say: the value is neither trimmed nor
    normalised), [validateForm] returns [true] and shows no message. *)
Theorem validate_nonempty_accepts s v :
  v <> "" ->
  field_value s = Some (VString v) ->
  validateForm s = (Normal true, s).
Proof.
  intros Hne Hv. rewrite validateForm_cases, Hv.
  destruct (strict_eq (VString v) (VString "")) eqn:He; [| reflexivity].
  apply strict_eq_empty in He. congruence.
Qed.

Lemma validate_nonempty_accepts_witness :
  " " <> "" /\
  field_value (load_page blank_html) = Some (VString " ") /\
  validateForm (load_page blank_html) = (Normal true, load_page blank_html).
Proof.
  split; [discriminate |]. split; [reflexivity |].
  apply (validate_nonempty_accepts (load_page blank_html) " ");
    [discriminate | reflexivity].
Defined.

(** C3: when no element carries the identifier of the username field,
    [validateForm] does not handle it: reading [value] of [null] raises
    the host's [TypeError], which leaves the call; the call returns neither
    [true] nor [false] and shows no message. *)
Theorem validate_missing_field_throws s :
  Forall (fun e => el_id e <> "username") (elements s) ->
  validateForm s = (Throw TypeError, s).
Proof.
  intros Hno. rewrite validateForm_cases, field_value_None by done. reflexivity.
Qed.

Lemma validate_missing_field_throws_witness :
  Forall (fun e => el_id e <> "username") (elements (load_page bare_html)) /\
  validateForm (load_page bare_html) = (Throw TypeError, load_page bare_html).
Proof.
  assert (H : Forall (fun e => el_id e <> "username")
                     (elements (load_page bare_html))).
  { simpl. repeat constructor; simpl; discriminate. }
  split; [exact H | apply validate_missing_field_throws; exact H].
Defined.

(** C7: [validateForm] is idempotent: called twice in a row, with the
    field untouched in between, it ends the same way both times; the first
    call leaves the value of the field as it found it. *)
Theorem validate_idempotent s :
  result validateForm (exec validateForm s) = result validateForm s /\
  field_value (exec validateForm s) = field_value s.
Proof.
  destruct (validateForm_shown s) as (msgs & Hs & _). rewrite Hs.
  split; [| apply field_value_shown].
  unfold result. rewrite !validateForm_cases, field_value_shown.
  destruct (field_value s) as [v|]; [| reflexivity].
  destruct (strict_eq v (VString "")); reflexivity.
Qed.

(** C8: [validateForm] and [showAlert] keep no state: on every path
    (accepting, rejecting, raising) a call leaves the elements with their
    values and listeners, the subscriptions to the ready signal and the
    ready flag as they were; only the list of messages shown can grow. *)
Theorem calls_leave_page_alone s m :
  (elements (exec validateForm s) = elements s /\
   ready (exec validateForm s) = ready s /\
   loaded (exec validateForm s) = loaded s /\
   field_value (exec validateForm s) = field_value s /\
   exists msgs, alerts (exec validateForm s) = alerts s ++ msgs) /\
  (elements (exec (showAlert m) s) = elements s /\
   ready (exec (showAlert m) s) = ready s /\
   loaded (exec (showAlert m) s) = loaded s /\
   field_value (exec (showAlert m) s) = field_value s /\
   alerts (exec (showAlert m) s) = alerts s ++ [m]).
Proof.
  split.
  - destruct (validateForm_shown s) as (msgs & -> & _).
    repeat split; try reflexivity. by exists msgs.
  - repeat split; reflexivity.
Qed.

(** C9: [validateForm] is determined by the value of the field: on two
    pages whose username fields hold equal values, the two calls return
    equal booleans and show the same messages, in number and in text. *)
Theorem validate_deterministic s1 s2 v :
  field_value s1 = Some v ->
  field_value s2 = Some v ->
  exists b msgs,
    validateForm s1 = (Normal b, shown msgs s1) /\
    validateForm s2 = (Normal b, shown msgs s2).
Proof.
  intros H1 H2. rewrite !validateForm_cases, H1, H2.
  destruct (strict_eq v (VString "")).
  - exists false, ["Username is required!"]. done.
  - exists true, []. by rewrite !shown_nil.
Qed.

Lemma validate_deterministic_witness :
  field_value (load_page demo_html) = Some (VString "") /\
  field_value (run [Click 0; Insert "x" VUndefined] (load_page [("username", VString "")]))
  = Some (VString "") /\
  exists b msgs,
    validateForm (load_page demo_html)
    = (Normal b, shown msgs (load_page demo_html)) /\
    validateForm (run [Click 0; Insert "x" VUndefined] (load_page [("username", VString "")]))
    = (Normal b, shown msgs (run [Click 0; Insert "x" VUndefined]
                                 (load_page [("username", VString "")]))).
Proof.
  split; [reflexivity |]. split; [reflexivity |].
  apply (validate_deterministic _ _ (VString "")); reflexivity.
Defined.

(** ** The notifier *)

(** C6: for every string [m], the empty one included, [showAlert m] shows
    exactly [m], unchanged, returns nothing, and does nothing else. *)
Theorem showAlert_passes_through m s :
  showAlert m s
  = (Normal tt, mkPage (elements s) (ready s) (loaded s) (alerts s ++ [m])).
Proof. reflexivity. Qed.

(** ** The button binder *)

(** C4: if the button exists when the ready signal fires, the ready
    listener attaches exactly one click listener to it and touches no
    other element; from then on [n] activations of the button in a row
    show [n] messages, each the literal "Button clicked!", and whatever
    else happens to the page, the button messages shown are as many as the
    activations of the button. *)
Theorem ready_binds_button html pre post r n :
  Ready ∉ pre ->
  button (run pre (load_page html)) = Some r ->
  let s := run pre (load_page html) in
  let s1 := step Ready s in
  elements s1 = alter (add_click ButtonClicked) r (elements s)
  /\ el_click <$> elements s !! r = Some []
  /\ el_click <$> elements s1 !! r = Some [ButtonClicked]
  /\ alerts (run (replicate n (Click r)) s1)
     = alerts s ++ replicate n "Button clicked!"
  /\ button_alerts (run post s1)
     = replicate (clicks_on r post) "Button clicked!".
Proof.
  intros Hpre Hb.
  assert (Hp : pristine (run pre (load_page html)))
    by (apply reach_pristine, loaded_run, Hpre).
  generalize dependent (run pre (load_page html)). intros s Hb Hp; cbv zeta.
  pose proof (ready_bound s r Hp Hb) as Hb1.
  pose proof (ready_binds s r Hp Hb) as Hs1.
  generalize dependent (step Ready s). intros s1 Hb1 Hs1.
  pose proof Hb as (e & He & _)%lookup_id_Some.
  assert (Hlt : r < length (elements s1)) by (by destruct Hb1).
  apply lookup_lt_is_Some in Hlt as [e1 He1].
  split; [| split; [| split; [| split]]].
  - by rewrite Hs1.
  - rewrite He. simpl. f_equal.
    destruct Hp as [_ _ Hc _]. rewrite Forall_lookup in Hc. exact (Hc r e He).
  - rewrite He1. simpl. f_equal.
    rewrite (bound_click _ _ _ Hb1 r e1 He1). by rewrite decide_True.
  - rewrite (run_clicks r n s1 Hb1). by rewrite Hs1.
  - exact (bound_alerts _ _ _ (bound_run r post 0 s1 Hb1)).
Qed.

Lemma ready_binds_button_witness :
  (Ready ∉ [Click 2; Submit]) /\
  button (run [Click 2; Submit] (load_page demo_html)) = Some 2 /\
  alerts (run (replicate 3 (Click 2))
              (step Ready (run [Click 2; Submit] (load_page demo_html))))
  = alerts (run [Click 2; Submit] (load_page demo_html))
    ++ replicate 3 "Button clicked!".
Proof.
  assert (H : Ready ∉ [Click 2; Submit]).
  { apply (bool_decide_unpack _). vm_compute. exact I. }
  split; [exact H |]. split; [reflexivity |].
  exact (proj1 (proj2 (proj2 (proj2
    (ready_binds_button demo_html [Click 2; Submit] [Input 1 "bob"; Click 2] 2 3
       H eq_refl))))).
Defined.

(** C5: if the button is absent when the ready signal fires, the ready
    listener attaches nothing, raises nothing and returns normally: the
    listener leaves the page as it found it, and the signal changes nothing
    but its own flag. *)
Theorem ready_without_button s :
  Forall (fun e => el_id e <> "myButton") (elements s) ->
  ready_body BindButton s = (Normal tt, s) /\
  (loaded s = false ->
   dispatch_ready s
   = (Normal tt, mkPage (elements s) (ready s) true (alerts s))).
Proof.
  intros Hno. apply lookup_id_None in Hno. split.
  - by rewrite ready_body_cases, Hno.
  - intros Hl. unfold dispatch_ready. rewrite Hl.
    generalize (ready s) at 1 as hs. intros hs.
    induction hs as [| h hs IH]; [reflexivity |].
    cbn [fmap list_fmap run_listeners]. unfold mbind, js_bind, isolated, exec.
    rewrite ready_body_cases. unfold lookup_id in *. cbn [elements].
    rewrite Hno. exact IH.
Qed.

Lemma ready_without_button_witness :
  Forall (fun e => el_id e <> "myButton") (elements (load_page plain_html)) /\
  ready_body BindButton (load_page plain_html) = (Normal tt, load_page plain_html).
Proof.
  assert (H : Forall (fun e => el_id e <> "myButton")
                     (elements (load_page plain_html))).
  { simpl. repeat constructor; simpl; discriminate. }
  split; [exact H | exact (proj1 (ready_without_button _ H))].
Defined.

(** C10: no "Button clicked!" message is shown before the ready signal:
    in every state a page reaches without that signal, no element has a
    click listener, activating any element shows nothing and changes
    nothing, and no such message is among those shown. *)
Theorem no_button_alert_before_ready html evs r :
  Ready ∉ evs ->
  Forall (fun e => el_click e = []) (elements (run evs (load_page html))) /\
  dispatch_click r (run evs (load_page html))
  = (Normal tt, run evs (load_page html)) /\
  "Button clicked!" ∉ alerts (run evs (load_page html)).
Proof.
  intros Hev.
  assert (Hp : pristine (run evs (load_page html)))
    by (apply reach_pristine, loaded_run, Hev).
  split; [by destruct Hp |]. split.
  - rewrite dispatch_click_shown, pristine_listeners_at by done.
    simpl. by rewrite shown_nil.
  - destruct Hp as [_ _ _ Ha].
    by apply (filter_nil_not_elem_of _ _ _ Ha).
Qed.

Lemma no_button_alert_before_ready_witness :
  (Ready ∉ [Click 2; Submit; Input 1 "dave"; Click 2]) /\
  "Button clicked!"
  ∉ alerts (run [Click 2; Submit; Input 1 "dave"; Click 2] (load_page demo_html)).
Proof.
  assert (H : Ready ∉ [Click 2; Submit; Input 1 "dave"; Click 2]).
  { apply (bool_decide_unpack _). vm_compute. exact I. }
  split; [exact H |].
  exact (proj2 (proj2 (no_button_alert_before_ready demo_html _ 2 H))).
Defined.

(** ** Lookups under changes that keep identifiers *)

Lemma list_find_alter_id id (f : element -> element) i (l : list element) :
  (forall e, el_id (f e) = el_id e) ->
  list_find (has_id id) (alter f i l)
  = (fun p => (p.1, if decide (i = p.1) then f p.2 else p.2))
      <$> list_find (has_id id) l.
Proof.
  intros Hf. revert i. induction l as [| x l IH]; intros i; [by destruct i |].
  destruct i as [| i]; cbn [alter list_alter list_find].
  - destruct (decide (has_id id x)) as [Hx | Hx].
    + rewrite decide_True by (unfold has_id in *; by rewrite Hf). reflexivity.
    + rewrite decide_False by (unfold has_id in *; by rewrite Hf).
      by destruct (list_find (has_id id) l) as [[j e]|].
  - destruct (decide (has_id id x)) as [Hx | Hx]; [reflexivity |].
    fold (alter f i l). rewrite IH.
    destruct (list_find (has_id id) l) as [[j e]|]; simpl; [| done].
    destruct (decide (i = j)), (decide (S i = S j)); done || lia.
Qed.

Lemma lookup_id_alter id (f : element -> element) i s rd ld al :
  (forall e, el_id (f e) = el_id e) ->
  lookup_id id (mkPage (alter f i (elements s)) rd ld al) = lookup_id id s.
Proof.
  intros Hf. unfold lookup_id. cbn [elements]. rewrite list_find_alter_id by done.
  by destruct (list_find (has_id id) (elements s)) as [[j e]|].
Qed.

Lemma field_value_find s :
  field_value s
  = (fun p => el_value p.2) <$> list_find (has_id "username") (elements s).
Proof.
  unfold field_value, lookup_id.
  destruct (list_find (has_id "username") (elements s)) as [[r e]|] eqn:Hf;
    simpl; [| done].
  apply list_find_Some in Hf as (Hl & _). by rewrite Hl.
Qed.

Lemma field_value_alter (f : element -> element) i s rd ld al :
  (forall e, el_id (f e) = el_id e) ->
  (forall e, el_value (f e) = el_value e) ->
  field_value (mkPage (alter f i (elements s)) rd ld al) = field_value s.
Proof.
  intros Hid Hv. rewrite !field_value_find. cbn [elements].
  rewrite list_find_alter_id by done.
  destruct (list_find (has_id "username") (elements s)) as [[j e]|]; simpl; [| done].
  destruct (decide (i = j)); simpl; by rewrite ?Hv.
Qed.

Lemma field_value_ready_listeners hs s :
  field_value (exec (run_listeners (ready_body <$> hs)) s) = field_value s.
Proof.
  revert s. induction hs as [| h hs IH]; intros s; [reflexivity |].
  cbn [fmap list_fmap run_listeners]. unfold exec, mbind, js_bind, isolated, exec.
  rewrite ready_body_cases.
  destruct (lookup_id "myButton" s) as [b|]; cbn [snd]; [| apply IH].
  unfold exec in IH. rewrite IH. by apply field_value_alter.
Qed.

Lemma result_validateForm_field s s' :
  field_value s = field_value s' ->
  result validateForm s = result validateForm s'.
Proof.
  intros Hf. unfold result. rewrite !validateForm_cases, Hf.
  destruct (field_value s') as [v|]; [| reflexivity].
  by destruct (strict_eq v (VString "")).
Qed.

Lemma field_value_step_Ready s : field_value (step Ready s) = field_value s.
Proof.
  cbn [step]. unfold exec at 1, dispatch_ready.
  destruct (loaded s); [reflexivity |].
  apply (field_value_ready_listeners (ready s)
           (mkPage (elements s) (ready s) true (alerts s))).
Qed.

Lemma field_value_step_Click r s : field_value (step (Click r) s) = field_value s.
Proof. cbn [step]. unfold exec. by rewrite dispatch_click_shown. Qed.

(** ** More on the form check *)

(** X1: the verdict of [validateForm] in full.  It is [false] exactly when
    the field holds the empty string, [true] exactly when the field holds
    anything else (a value that is not a string included, the comparison
    being strict), a [TypeError] exactly when there is no field; and a
    message is shown exactly in the first case. *)
Theorem validate_verdict s :
  (result validateForm s = Normal false <-> field_value s = Some (VString "")) /\
  (result validateForm s = Normal true
   <-> exists v, field_value s = Some v /\ v <> VString "") /\
  (result validateForm s = Throw TypeError <-> field_value s = None) /\
  alerts (exec validateForm s)
  = alerts s ++ (if decide (field_value s = Some (VString ""))
                 then ["Username is required!"] else []).
Proof.
  unfold result, exec. rewrite validateForm_cases.
  destruct (field_value s) as [v|]; cbn [fst snd].
  - destruct (strict_eq v (VString "")) eqn:He; cbn [fst snd].
    + apply strict_eq_empty in He as ->. rewrite decide_True by done.
      repeat split; try done. intros (v & [= <-] & Hv). done.
    + assert (Hv : v <> VString "").
      { intros Hv. apply strict_eq_empty in Hv. congruence. }
      rewrite decide_False by congruence. rewrite app_nil_r.
      repeat split; try done; try congruence. intros _. by exists v.
  - rewrite decide_False by done. rewrite app_nil_r.
    repeat split; try done. intros (v & [=] & _).
Qed.

(** X2: the binder does not disturb the form check.  The ready signal and
    an activation of any element, whatever listeners the page holds, leave
    the value the check reads, and so its verdict, as they were. *)
Theorem binder_keeps_verdict s r :
  field_value (step Ready s) = field_value s /\
  field_value (step (Click r) s) = field_value s /\
  result validateForm (step Ready s) = result validateForm s /\
  result validateForm (step (Click r) s) = result validateForm s.
Proof.
  pose proof (field_value_step_Ready s) as H1.
  pose proof (field_value_step_Click r s) as H2.
  repeat split; try done; by apply result_validateForm_field.
Qed.





(** X5: every rejected submission shows its message again.  While the
    field stays empty, [k] calls of the check in a row show [k] messages
    and change nothing else. *)
Theorem each_rejection_alerts s k :
  field_value s = Some (VString "") ->
  run (replicate k Submit) s = shown (replicate k "Username is required!") s.
Proof.
  revert s. induction k as [| k IH]; intros s Hf.
  - simpl. by rewrite shown_nil.
  - cbn [replicate]. change (run (Submit :: replicate k Submit) s)
      with (run (replicate k Submit) (exec validateForm s)).
    unfold exec. rewrite validateForm_cases, Hf. cbn [snd strict_eq].
    rewrite bool_decide_eq_true_2 by done. cbn [snd].
    rewrite IH by done. by rewrite shown_shown.
Qed.

Lemma each_rejection_alerts_witness :
  field_value (load_page demo_html) = Some (VString "") /\
  run (replicate 3 Submit) (load_page demo_html)
  = shown (replicate 3 "Username is required!") (load_page demo_html).
Proof.
  split; [reflexivity | apply each_rejection_alerts; reflexivity].
Defined.

(** ** More on the life of a page *)

Lemma no_listeners_at r s :
  Forall (fun e => el_click e = []) (elements s) -> listeners_at r s = 0.
Proof.
  intros Hc. unfold listeners_at.
  destruct (elements s !! r) as [e|] eqn:He; simpl; [| done].
  rewrite Forall_lookup in Hc. by rewrite (Hc r e He).
Qed.

Lemma idle_step ev s :
  idle s -> idle (step ev s) /\ button_alerts (step ev s) = button_alerts s.
Proof.
  intros [Hl Hc]. destruct ev as [| r | r v | id v |]; cbn [step].
  - unfold exec, dispatch_ready. rewrite Hl. by split.
  - unfold exec. rewrite dispatch_click_shown, no_listeners_at by done.
    cbn [replicate snd]. rewrite shown_nil. by split.
  - split; [| reflexivity]. split; [done |]. cbn [elements].
    apply Forall_alter; [done |]. intros e _ He. exact He.
  - split; [| reflexivity]. split; [done |]. cbn [elements].
    apply list.Forall_app. split; [done |]. by constructor.
  - split; [| apply button_alerts_validateForm].
    by destruct (validateForm_shown s) as (msgs & -> & _).
Qed.

Lemma idle_run evs : forall s,
  idle s -> idle (run evs s) /\ button_alerts (run evs s) = button_alerts s.
Proof.
  induction evs as [| ev evs IH]; intros s Hi; [done |].
  destruct (idle_step ev s Hi) as [Hi' Ha'].
  destruct (IH (step ev s) Hi') as [Hi'' Ha'']. split; [done |].
  change (run (ev :: evs) s) with (run evs (step ev s)). congruence.
Qed.

Lemma idle_after_ready s :
  pristine s -> button s = None ->
  idle (step Ready s) /\ button_alerts (step Ready s) = [].
Proof.
  intros Hp Hb. rewrite (ready_skips s Hp Hb).
  destruct Hp as [_ _ Hc Ha]. by split.
Qed.

(** Every state a page passes through is of one of three kinds. *)
Lemma reach_cases html evs :
  pristine (run evs (load_page html)) \/
  idle (run evs (load_page html)) \/
  exists r n, bound r n (run evs (load_page html)).
Proof.
  induction evs as [| ev evs IH] using rev_ind.
  - left. apply pristine_load_page.
  - rewrite run_snoc. destruct IH as [Hp | [Hi | (r & n & Hb)]].
    + destruct (decide (ev = Ready)) as [-> | Hev].
      * destruct (button (run evs (load_page html))) as [r|] eqn:Hb.
        -- right; right. exists r, 0. by apply ready_bound.
        -- right; left. by apply idle_after_ready.
      * left. by apply pristine_step.
    + right; left. by apply idle_step.
    + right; right. eexists r, _. by apply bound_step.
Qed.



(** X7: one activation never shows more than one message.  In every state
    a page reaches, at most one element has a click listener and that
    element has exactly one, so an activation of any element shows either
    nothing or the single message "Button clicked!". *)
Theorem click_shows_at_most_one html evs r :
  (forall i j, 0 < listeners_at i (run evs (load_page html)) ->
               0 < listeners_at j (run evs (load_page html)) -> i = j) /\
  exists msgs,
    dispatch_click r (run evs (load_page html))
    = (Normal tt, shown msgs (run evs (load_page html))) /\
    (msgs = [] \/ msgs = ["Button clicked!"]).
Proof.
  rewrite dispatch_click_shown.
  destruct (reach_cases html evs) as [Hp | [Hi | (b & n & Hb)]].
  - split.
    + intros i j Hi. rewrite pristine_listeners_at in Hi by done. lia.
    + eexists. split; [reflexivity |]. rewrite pristine_listeners_at by done.
      by left.
  - destruct Hi as [_ Hc]. split.
    + intros i j Hi. rewrite no_listeners_at in Hi by done. lia.
    + eexists. split; [reflexivity |]. rewrite no_listeners_at by done.
      by left.
  - split.
    + intros i j. rewrite !(bound_listeners_at b n _ _ Hb).
      destruct (decide (i = b)), (decide (j = b)); intros; congruence || lia.
    + eexists. split; [reflexivity |]. rewrite (bound_listeners_at b n _ _ Hb).
      destruct (decide (r = b)); [by right | by left].
Qed.

(** X8: the binding is never retried.  If the button is missing when the
    ready signal fires, then whatever happens afterwards, a button added
    later and activated included, no element ever gets a click listener
    and no "Button clicked!" message is ever shown. *)
Theorem late_button_never_bound html pre post :
  Ready ∉ pre ->
  button (run pre (load_page html)) = None ->
  Forall (fun e => el_click e = [])
         (elements (run post (step Ready (run pre (load_page html))))) /\
  "Button clicked!"
  ∉ alerts (run post (step Ready (run pre (load_page html)))).
Proof.
  intros Hpre Hb.
  assert (Hp : pristine (run pre (load_page html)))
    by (apply reach_pristine, loaded_run, Hpre).
  destruct (idle_after_ready _ Hp Hb) as [Hi Ha].
  destruct (idle_run post _ Hi) as [[_ Hc] Ha']. split; [done |].
  rewrite Ha in Ha'. by apply (filter_nil_not_elem_of _ _ _ Ha').
Qed.

Lemma late_button_never_bound_witness :
  (Ready ∉ [Submit]) /\
  button (run [Submit] (load_page plain_html)) = None /\
  "Button clicked!"
  ∉ alerts (run [Insert "myButton" (VString "Go"); Click 2; Ready; Click 2]
                (step Ready (run [Submit] (load_page plain_html)))).
Proof.
  assert (H : Ready ∉ [Submit]).
  { apply (bool_decide_unpack _). vm_compute. exact I. }
  split; [exact H |]. split; [reflexivity |].
  exact (proj2 (late_button_never_bound plain_html [Submit]
                  [Insert "myButton" (VString "Go"); Click 2; Ready; Click 2]
                  H eq_refl)).
Defined.

Lemma idle_late_page html :
  idle (late_page html) /\ button_alerts (late_page html) = [].
Proof.
  split; [| reflexivity]. split; [reflexivity |]. cbn.
  apply Forall_fmap, Forall_forall. intros; reflexivity.
Qed.

(** X9: a script evaluated after the ready signal never binds the button.
    The subscription comes too late to be served, so whatever happens
    afterwards no element gets a click listener and no "Button clicked!"
    message is shown, even though the button is there. *)
Theorem late_script_never_binds html evs :
  Forall (fun e => el_click e = []) (elements (run evs (late_page html))) /\
  "Button clicked!" ∉ alerts (run evs (late_page html)).
Proof.
  destruct (idle_late_page html) as [Hi Ha].
  destruct (idle_run evs _ Hi) as [[_ Hc] Ha']. split; [done |].
  rewrite Ha in Ha'. by apply (filter_nil_not_elem_of _ _ _ Ha').
Qed.



(** ** The file included more than once *)

Lemma load_page_times_eq k html :
  load_page_times k html
  = mkPage (parsed <$> html) (replicate k BindButton) false [].
Proof.
  unfold load_page_times. induction k as [| k IH]; [reflexivity |].
  rewrite Nat.iter_succ, IH, replicate_S_end. reflexivity.
Qed.

(** Each ready listener that runs adds one more click listener to the
    button. *)
Lemma ready_listeners_bind hs : forall s r,
  lookup_id "myButton" s = Some r ->
  listeners_at r (exec (run_listeners (ready_body <$> hs)) s)
  = listeners_at r s + length hs /\
  alerts (exec (run_listeners (ready_body <$> hs)) s) = alerts s.
Proof.
  induction hs as [| h hs IH]; intros s r Hr.
  - cbn. by rewrite Nat.add_0_r.
  - cbn [fmap list_fmap run_listeners]. unfold exec, mbind, js_bind, isolated, exec.
    rewrite ready_body_cases, Hr. cbn [snd].
    pose (s2 := mkPage (alter (add_click ButtonClicked) r (elements s))
                       (ready s) (loaded s) (alerts s)).
    assert (Hr2 : lookup_id "myButton" s2 = Some r)
      by (unfold s2; by rewrite lookup_id_alter).
    destruct (IH s2 r Hr2) as [Hn Ha]. unfold exec in Hn, Ha. fold s2.
    rewrite Hn, Ha. split; [| reflexivity].
    apply lookup_id_Some in Hr as (e & He & _).
    unfold listeners_at, s2. cbn [elements length].
    rewrite list_lookup_alter_eq, He. cbn. rewrite length_app. cbn. lia.
Qed.

Lemma run_clicks_general r n : forall s,
  run (replicate n (Click r)) s
  = shown (replicate (n * listeners_at r s) "Button clicked!") s.
Proof.
  induction n as [| n IH]; intros s.
  - cbn. by rewrite shown_nil.
  - cbn [replicate].
    change (run (Click r :: replicate n (Click r)) s)
      with (run (replicate n (Click r)) (exec (dispatch_click r) s)).
    unfold exec. rewrite dispatch_click_shown. cbn [snd].
    rewrite IH, shown_shown. cbn [Nat.mul].
    change (listeners_at r (shown _ s)) with (listeners_at r s).
    by rewrite replicate_add.
Qed.

(** X11: the binding is not idempotent.  If the file is included [k] times
    the ready signal attaches [k] click listeners to the button, and [n]
    activations of the button then show [n * k] messages "Button clicked!". *)
Theorem repeated_script_repeats_message k html r n :
  button (load_page_times k html) = Some r ->
  listeners_at r (step Ready (load_page_times k html)) = k /\
  alerts (run (replicate n (Click r)) (step Ready (load_page_times k html)))
  = replicate (n * k) "Button clicked!".
Proof.
  rewrite load_page_times_eq.
  assert (Hc : Forall (fun e => el_click e = []) (parsed <$> html))
    by (apply Forall_fmap, list.Forall_forall; intros; reflexivity).
  generalize dependent (parsed <$> html). intros els Hc Hr.
  change (step Ready (mkPage els (replicate k BindButton) false []))
    with (exec (run_listeners (ready_body <$> replicate k BindButton))
               (mkPage els (replicate k BindButton) true [])).
  destruct (ready_listeners_bind (replicate k BindButton)
              (mkPage els (replicate k BindButton) true []) r Hr) as [Hn Ha].
  rewrite length_replicate in Hn.
  rewrite (no_listeners_at r (mkPage els _ true [])) in Hn by done.
  split; [exact Hn |].
  assert (Hsh : forall m s, alerts (shown m s) = alerts s ++ m) by reflexivity.
  by rewrite run_clicks_general, Hsh, Hn, Ha.
Qed.

Lemma repeated_script_repeats_message_witness :
  button (load_page_times 2 demo_html) = Some 2 /\
  alerts (run (replicate 3 (Click 2)) (step Ready (load_page_times 2 demo_html)))
  = replicate (3 * 2) "Button clicked!".
Proof.
  split; [reflexivity |].
  exact (proj2 (repeated_script_repeats_message 2 demo_html 2 3 eq_refl)).
Defined.
